(** Verification of [local_code_ai_agent.py]: a human-in-the-loop pipeline
    that asks a local model for a plan and for code, stores both, and runs
    the generated script after two approval prompts.

    The development has four layers:
    - [PyStr]: the [str] methods the program calls ([strip], [lower],
      [replace], [startswith], [endswith], [in]);
    - [PosixPath]: [os.path.join], [normpath], [abspath], [basename];
    - the effectful program, written in a small state-and-exit monad over
      an explicit [World] (arguments, subprocess and file oracles);
    - the theorems about the program.

    Python text is a sequence of code points; here a text is a [string]
    whose characters are read as the code points U+0000 to U+00FF. *)

From Stdlib Require Import Ascii String ZArith Lia Bool List DecimalString.
From stdpp Require Import gmap strings.

Local Open Scope Z_scope.

(** * Python [str] methods *)

Module PyStr.

(** [str.isspace] on one character, for the code points below 256:
    TAB to CR, the four separators FS GS RS US, SPACE, NEL and NBSP. *)
Definition isspace (c : ascii) : bool :=
  let n := N_of_ascii c in
  ((9 <=? n) && (n <=? 13) || (28 <=? n) && (n <=? 32)
   || (n =? 133) || (n =? 160))%N.

(** [str.lower] on one character, for the code points below 256: the
    letters A to Z, and the Latin-1 capitals U+00C0 to U+00DE except the
    multiplication sign U+00D7, are moved up by 32. *)
Definition lower_char (c : ascii) : ascii :=
  let n := N_of_ascii c in
  if ((65 <=? n) && (n <=? 90)
      || (192 <=? n) && (n <=? 222) && negb (n =? 215))%N
  then ascii_of_N (n + 32) else c.

Fixpoint lower (s : string) : string :=
  match s with
  | EmptyString => EmptyString
  | String c s' => String (lower_char c) (lower s')
  end.

Fixpoint lstrip (s : string) : string :=
  match s with
  | EmptyString => EmptyString
  | String c s' => if isspace c then lstrip s' else s
  end.

Fixpoint rstrip (s : string) : string :=
  match s with
  | EmptyString => EmptyString
  | String c s' =>
      match rstrip s' with
      | EmptyString => if isspace c then EmptyString else String c EmptyString
      | r => String c r
      end
  end.

(** [s.strip()] *)
Definition strip (s : string) : string := rstrip (lstrip s).

(** [s.startswith(pre)] *)
Fixpoint startswith (s pre : string) : bool :=
  match pre, s with
  | EmptyString, _ => true
  | String _ _, EmptyString => false
  | String a pre', String b s' => Ascii.eqb a b && startswith s' pre'
  end.

(** [s.endswith(suf)] *)
Fixpoint endswith (s suf : string) : bool :=
  String.eqb s suf ||
  match s with
  | EmptyString => false
  | String _ s' => endswith s' suf
  end.

(** [sub in s] *)
Fixpoint contains (sub s : string) : bool :=
  startswith s sub ||
  match s with
  | EmptyString => false
  | String _ s' => contains sub s'
  end.

(** [s.replace(old, new)] scans [s] from the left and replaces every
    occurrence of [old] that does not overlap the one replaced before it.
    [skip] counts the characters of the match still to be passed over. *)
Fixpoint replace_from (old new : string) (skip : nat) (s : string) : string :=
  match s with
  | EmptyString => EmptyString
  | String c s' =>
      match skip with
      | S k => replace_from old new k s'
      | O =>
          if startswith s old
          then new +:+ replace_from old new (Nat.pred (String.length old)) s'
          else String c (replace_from old new O s')
      end
  end.

(** With an empty [old], Python puts [new] before every character and at
    the end. *)
Fixpoint interleave (new s : string) : string :=
  match s with
  | EmptyString => new
  | String c s' => new +:+ String c (interleave new s')
  end.

Definition replace (s old new : string) : string :=
  match old with
  | EmptyString => interleave new s
  | String _ _ => replace_from old new O s
  end.

(** [str(n)] for an integer. *)
Definition str_of_Z (n : Z) : string := NilZero.string_of_int (Z.to_int n).

End PyStr.

(** * [os.path] on a POSIX system *)

Module PosixPath.
Import PyStr.

(** [s.split("/")] *)
Fixpoint split (s : string) : list string :=
  match s with
  | EmptyString => [EmptyString]
  | String c s' =>
      if Ascii.eqb c "/" then EmptyString :: split s'
      else match split s' with
           | h :: t => String c h :: t
           | [] => [String c EmptyString]
           end
  end.

(** ["/".join(comps)] *)
Fixpoint join_sep (comps : list string) : string :=
  match comps with
  | [] => EmptyString
  | [c] => c
  | c :: cs => c +:+ "/" +:+ join_sep cs
  end.

Definition isabs (path : string) : bool := startswith path "/".

(** [os.path.join(a, b)] *)
Definition join (a b : string) : string :=
  if startswith b "/" then b
  else if String.eqb a "" || endswith a "/" then a +:+ b
  else a +:+ "/" +:+ b.

(** One turn of the loop of [normpath] over the components. *)
Definition norm_step (initial_slashes : nat) (new_comps : list string)
    (comp : string) : list string :=
  if String.eqb comp "" || String.eqb comp "." then new_comps
  else if negb (String.eqb comp "..")
          || (Nat.eqb initial_slashes 0 && Nat.eqb (List.length new_comps) 0)
          || (negb (Nat.eqb (List.length new_comps) 0)
              && String.eqb (List.last new_comps "") "..")
  then new_comps ++ [comp]
  else List.removelast new_comps.

Fixpoint slashes (n : nat) : string :=
  match n with
  | O => EmptyString
  | S k => String "/" (slashes k)
  end.

(** [os.path.normpath(path)] *)
Definition normpath (path : string) : string :=
  if String.eqb path "" then "."
  else
    let initial_slashes :=
      if startswith path "/"
      then if startswith path "//" && negb (startswith path "///")
           then 2%nat else 1%nat
      else 0%nat in
    let comps := fold_left (norm_step initial_slashes) (split path) [] in
    let path := slashes initial_slashes +:+ join_sep comps in
    if String.eqb path "" then "." else path.

(** [os.path.abspath(path)] in the working directory [cwd]. *)
Definition abspath (cwd path : string) : string :=
  normpath (if isabs path then path else join cwd path).

(** [os.path.basename(p)]: what follows the last slash. *)
Definition basename (p : string) : string := List.last (split p) "".

End PosixPath.

(** * The world the program runs in *)

(** Outcome of [subprocess.Popen(cmd, ...)] followed by
    [proc.communicate(input)]. *)
Inductive popen_result :=
| PopenNotFound
| PopenError (msg : string)
| PopenDone (out err : string) (returncode : Z).

(** Outcome of [with open(path, "w") as f: f.write(content)]. A failure
    carries the text of the exception and what the file holds afterwards:
    [None] when [open] itself failed and the file is untouched. *)
Inductive write_result :=
| WriteOk
| WriteFailed (msg : string) (residue : option string).

(** Outcome of [subprocess.run(cmd)]: the child's return code, or the text
    of the exception raised when the child could not be started. *)
Inductive run_result :=
| RunDone (returncode : Z)
| RunError (msg : string).

Record World := {
  argv : list string;                       (* sys.argv *)
  script_file : string;                     (* __file__ *)
  cwd : string;                             (* os.getcwd() *)
  executable : string;                      (* sys.executable *)
  stdin : list string;                      (* the lines input() will read *)
  files0 : gmap string string;              (* the files before the run *)
  (* the n-th subprocess started through Popen *)
  popen : nat -> list string -> string -> popen_result;
  fs_write : string -> string -> write_result;
  spawn : list string -> gmap string string -> run_result * gmap string string;
  json_dump : list (string * string) -> string;     (* json.dump, indent=4 *)
  called_process_error_str : list string -> Z -> string
}.

(** What the program does to the world, in order, each interaction with
    the answer the world gave. *)
Inductive event :=
| EvStdout (line : string)
| EvStderr (line : string)
| EvPopen (cmd : list string) (input : string) (result : popen_result)
| EvInput (prompt : string) (answer : option string)
| EvOpen (path content : string) (result : write_result)
| EvRun (cmd : list string) (result : run_result).

Record State := {
  files : gmap string string;
  unread : list string;
  launched : nat;
  trace : list event
}.

Definition init (w : World) : State :=
  {| files := files0 w; unread := stdin w; launched := 0; trace := [] |}.

(** How a call ends: it returns, [sys.exit(code)] unwinds the program, or
    an exception nobody catches does. *)
Inductive result (A : Type) :=
| Ret (a : A)
| SysExit (code : Z)
| Uncaught (exc : string).
Arguments Ret {A} a.
Arguments SysExit {A} code.
Arguments Uncaught {A} exc.

Definition M (A : Type) : Type := State -> result A * State.

Definition ret {A} (a : A) : M A := fun st => (Ret a, st).

Definition bind {A B} (m : M A) (k : A -> M B) : M B :=
  fun st =>
    match m st with
    | (Ret a, st') => k a st'
    | (SysExit c, st') => (SysExit c, st')
    | (Uncaught e, st') => (Uncaught e, st')
    end.

Notation "x <- m ;; k" := (bind m (fun x => k))
  (at level 100, m at next level, right associativity).
Notation "m ;;; k" := (bind m (fun _ => k))
  (at level 100, right associativity).

Definition emit (e : event) : M unit :=
  fun st =>
    (Ret tt, {| files := files st; unread := unread st;
                launched := launched st; trace := trace st ++ [e] |}).

Definition print (line : string) : M unit := emit (EvStdout line).
Definition eprint (line : string) : M unit := emit (EvStderr line).
Definition sys_exit {A} (code : Z) : M A := fun st => (SysExit code, st).

(** The exit status of the interpreter. *)
Definition exit_code {A} (r : result A) : Z :=
  match r with
  | Ret _ => 0
  | SysExit c => c
  | Uncaught _ => 1
  end.

Section Program.
Import PyStr PosixPath.
Variable w : World.

(** [input(prompt)]: the next line of standard input, [EOFError] when
    there is none. *)
Definition input (prompt : string) : M string :=
  fun st =>
    match unread st with
    | [] =>
        (Uncaught "EOFError",
         {| files := files st; unread := [];
            launched := launched st;
            trace := trace st ++ [EvInput prompt None] |})
    | line :: rest =>
        (Ret line,
         {| files := files st; unread := rest;
            launched := launched st;
            trace := trace st ++ [EvInput prompt (Some line)] |})
    end.

Definition popen_communicate (cmd : list string) (text : string)
    : M popen_result :=
  fun st =>
    let r := popen w (launched st) cmd text in
    (Ret r,
     {| files := files st; unread := unread st;
        launched := S (launched st);
        trace := trace st ++ [EvPopen cmd text r] |}).

(** The files after [open(path, "w")] and the write of [content]; a
    relative [path] is taken from the working directory. *)
Definition written (path content : string) (fs : gmap string string)
    : gmap string string :=
  let key := abspath (cwd w) path in
  match fs_write w path content with
  | WriteOk => <[key := content]> fs
  | WriteFailed _ None => fs
  | WriteFailed _ (Some residue) => <[key := residue]> fs
  end.

Definition open_write (path content : string) : M write_result :=
  fun st =>
    let r := fs_write w path content in
    (Ret r,
     {| files := written path content (files st); unread := unread st;
        launched := launched st;
        trace := trace st ++ [EvOpen path content r] |}).

Definition subprocess_run (cmd : list string) : M run_result :=
  fun st =>
    let '(r, files') := spawn w cmd (files st) in
    (Ret r,
     {| files := files'; unread := unread st;
        launched := launched st;
        trace := trace st ++ [EvRun cmd r] |}).

Definition LF : string := String (ascii_of_nat 10) "".
Definition DQ : string := String (ascii_of_nat 34) "".

Definition OLLAMA_MODEL : string := "codellama:7b".

Definition PLAN_SYSTEM_PROMPT : string :=
  "You are an AI agent that generates a step-by-step plan for a given file or folder creation request."
  +:+ LF +:+
  "You must detail each step and justify your choices (e.g., using os.makedirs or pathlib) "
  +:+ LF +:+
  "for a Windows environment.".

Definition query_ollama (prompt model : string) : M string :=
  r <- popen_communicate ["ollama"; "run"; model] prompt ;;
  match r with
  | PopenDone out err returncode =>
      (if String.eqb err "" then ret tt
       else eprint ("[DEBUG] Ollama STDERR: " +:+ err)) ;;;
      if negb (returncode =? 0)
      then eprint ("[ERROR] Ollama process exited with code "
                   +:+ str_of_Z returncode) ;;;
           sys_exit 1
      else ret (strip out)
  | PopenNotFound =>
      eprint "Error: Ollama not found. Ensure it's installed and on PATH." ;;;
      sys_exit 1
  | PopenError e =>
      eprint ("Error while querying Ollama: " +:+ e) ;;;
      sys_exit 1
  end.

Definition plan_prompt (user_request : string) : string :=
  PLAN_SYSTEM_PROMPT +:+ LF +:+ LF +:+ "User request:" +:+ LF
  +:+ user_request +:+ LF +:+ LF +:+ "Plan:".

Definition plan_phase (user_request : string) : M string :=
  print "[INFO] Generating plan with Ollama..." ;;;
  plan_response <- query_ollama (plan_prompt user_request) OLLAMA_MODEL ;;
  ret plan_response.

Definition save_prompt_to_file (plan_text code_text user_request : string)
    (filename : string) : M unit :=
  let data := [("user_request", user_request); ("plan", plan_text);
               ("generated_code", code_text)] in
  r <- open_write filename (json_dump w data) ;;
  match r with
  | WriteOk => print ("[INFO] Prompts saved to " +:+ filename)
  | WriteFailed e _ => print ("[ERROR] Could not save prompts to file: " +:+ e)
  end.

Definition detect_language (user_request : string) : string := "python".

Definition code_prompt (plan_text user_request : string) : string :=
  "You are an AI that generates Python code based on the given plan and request."
  +:+ LF +:+ "Plan:" +:+ LF +:+ plan_text +:+ LF +:+ LF
  +:+ "User request:" +:+ LF +:+ user_request +:+ LF +:+ LF
  +:+ "Generate a clean, executable Python script without markdown formatting, backticks, or extra explanations."
  +:+ LF
  +:+ "Ensure it works within the current directory and checks for existing files before writing."
  +:+ LF +:+ LF +:+ "Python Code:" +:+ LF.

(** The line [clean_code = code_response.replace(...).replace(...).strip()]. *)
Definition clean_code (code_response : string) : string :=
  strip (replace (replace code_response "```python" "") "```" "").

Definition code_phase (plan_text user_request : string) : M string :=
  print "[INFO] Generating Python code with Ollama..." ;;;
  code_response <- query_ollama (code_prompt plan_text user_request)
                     OLLAMA_MODEL ;;
  ret (clean_code code_response).

Definition save_code_to_file (code_text filename : string) : M unit :=
  let filename := abspath (cwd w) "generated_script.py" in
  r <- open_write filename (code_text +:+ LF) ;;
  match r with
  | WriteOk => print ("[INFO] Code saved to " +:+ filename)
  | WriteFailed e _ =>
      print ("[ERROR] Could not write to " +:+ filename +:+ ": " +:+ e)
  end.

Definition execute_script (script_path : string) : M unit :=
  let script_path := abspath (cwd w) script_path in
  print ("[INFO] Running the script at: " +:+ script_path) ;;;
  if negb (endswith script_path ".py")
  then print "[ERROR] The generated script does not have a valid Python extension."
  else
    let cmd := [executable w; script_path] in
    r <- subprocess_run cmd ;;
    match r with
    | RunDone returncode =>
        if returncode =? 0
        then print "[INFO] Script executed successfully."
        else print ("[ERROR] Script execution failed with code "
                    +:+ str_of_Z returncode +:+ ": "
                    +:+ called_process_error_str w cmd returncode)
    | RunError e =>
        print ("[ERROR] An unexpected error occurred while running the script: "
               +:+ e)
    end.

Definition usage : string :=
  "Usage: python " +:+ basename (script_file w) +:+ " " +:+ DQ
  +:+ "Your request here" +:+ DQ.

Definition plan_question : string :=
  "Do you want to proceed with code generation based on this plan? (Y/N) ".

Definition exec_question (generated_filename : string) : string :=
  "Review the file '" +:+ generated_filename
  +:+ "'. Proceed with execution? (Y/N) ".

Definition main : M unit :=
  match argv w with
  | [] | [_] => print usage ;;; sys_exit 1
  | _ :: user_request :: _ =>
      let working_dir := cwd w in
      print ("[INFO] Working in directory: " +:+ working_dir) ;;;
      plan_text <- plan_phase user_request ;;
      print (LF +:+ "=== PLAN PHASE OUTPUT ===") ;;;
      print plan_text ;;;
      print ("=== END PLAN PHASE OUTPUT ===" +:+ LF) ;;;
      answer <- input plan_question ;;
      let confirm_plan := lower (strip answer) in
      if negb (String.eqb confirm_plan "y")
      then print "[INFO] User aborted after Plan Phase." ;;; sys_exit 0
      else
        code_text <- code_phase plan_text user_request ;;
        print (LF +:+ "=== CODE PHASE OUTPUT ===") ;;;
        print code_text ;;;
        print ("=== END CODE PHASE OUTPUT ===" +:+ LF) ;;;
        save_prompt_to_file plan_text code_text user_request
          "generated_prompt.json" ;;;
        let generated_filename := "generated_script.py" in
        save_code_to_file code_text generated_filename ;;;
        answer <- input (exec_question generated_filename) ;;
        let confirm_code := lower (strip answer) in
        if negb (String.eqb confirm_code "y")
        then print "[INFO] User aborted before script execution." ;;;
             sys_exit 0
        else
          execute_script generated_filename ;;;
          print "[INFO] Done."
  end.

End Program.

(** A whole run of the program in the world [w]. *)
Definition run (w : World) : result unit * State := main w (init w).

(** The parts of a trace the statements speak about. *)
Definition is_popen (e : event) : bool :=
  match e with EvPopen _ _ _ => true | _ => false end.
Definition is_open (e : event) : bool :=
  match e with EvOpen _ _ _ => true | _ => false end.
Definition is_run (e : event) : bool :=
  match e with EvRun _ _ => true | _ => false end.
Definition is_stderr (e : event) : bool :=
  match e with EvStderr _ => true | _ => false end.

Definition ollama_cmd : list string := ["ollama"; "run"; OLLAMA_MODEL].

(** The line [save_prompt_to_file] prints after a write that ended as [r],
    and the one [save_code_to_file] prints. *)
Definition prompt_report (filename : string) (r : write_result) : string :=
  match r with
  | WriteOk => "[INFO] Prompts saved to " +:+ filename
  | WriteFailed e _ => "[ERROR] Could not save prompts to file: " +:+ e
  end.

Definition script_report (filename : string) (r : write_result) : string :=
  match r with
  | WriteOk => "[INFO] Code saved to " +:+ filename
  | WriteFailed e _ =>
      "[ERROR] Could not write to " +:+ filename +:+ ": " +:+ e
  end.

Definition bundle (w : World) (plan_text code_text user_request : string)
    : string :=
  json_dump w [("user_request", user_request); ("plan", plan_text);
               ("generated_code", code_text)].

Definition script_path (w : World) : string :=
  PosixPath.abspath (cwd w) "generated_script.py".

(** ** Sample worlds *)

Definition sample_plan : string :=
  "1. Use a directory-creation call. 2. Check existence first.".

Definition sample_code : string :=
  "import os" +:+ LF +:+ "os.makedirs('reports', exist_ok=True)".

Definition sample_response : string :=
  "```python" +:+ LF +:+ sample_code +:+ LF +:+ "```".

(** A world in which the model answers with [model], the lines typed at
    the prompts are [answers], writes end as [wr] says and the generated
    script ends as [child]. *)
Definition sample_world (args answers : list string)
    (model : nat -> popen_result) (wr : string -> write_result)
    (child : run_result) : World :=
  {| argv := args;
     script_file := "/home/dev/agent/local_code_ai_agent.py";
     cwd := "/home/dev/agent";
     executable := "/usr/bin/python3";
     stdin := answers;
     files0 := ∅;
     popen := fun n _ _ => model n;
     fs_write := fun path _ => wr path;
     spawn := fun _ fs => (child, fs);
     json_dump := fun data =>
       fold_right (fun kv acc => fst kv +:+ "=" +:+ snd kv +:+ ";" +:+ acc)
         "" data;
     called_process_error_str := fun _ rc =>
       "Command returned non-zero exit status " +:+ PyStr.str_of_Z rc +:+ "." |}.

Definition good_model (n : nat) : popen_result :=
  match n with
  | O => PopenDone sample_plan "" 0
  | _ => PopenDone sample_response "" 0
  end.

Definition agent_args : list string :=
  ["local_code_ai_agent.py"; "create a folder named reports"].

(** The same world, with the program started in another directory. *)
Definition in_dir (d : string) (w : World) : World :=
  {| argv := argv w; script_file := script_file w; cwd := d;
     executable := executable w; stdin := stdin w; files0 := files0 w;
     popen := popen w; fs_write := fs_write w; spawn := spawn w;
     json_dump := json_dump w;
     called_process_error_str := called_process_error_str w |}.

Definition all_ok (path : string) : write_result := WriteOk.

(** Every write of a file named [generated_script.py] fails. *)
Definition script_unwritable (path : string) : write_result :=
  if PyStr.endswith path "generated_script.py"
  then WriteFailed "[Errno 13] Permission denied" None
  else WriteOk.

Definition no_runner (n : nat) : popen_result := PopenNotFound.

(** The worlds the examples run in. *)
Definition world_ok : World :=
  sample_world agent_args ["y"; "y"] good_model all_ok (RunDone 0).
Definition world_refused : World :=
  sample_world agent_args ["no"] good_model all_ok (RunDone 0).
Definition world_script_fails : World :=
  sample_world agent_args ["y"; "Y"] good_model all_ok (RunDone 3).
Definition world_no_runner : World :=
  sample_world agent_args [] no_runner all_ok (RunDone 0).
Definition world_unwritable : World :=
  sample_world agent_args ["y"; "y"] good_model script_unwritable (RunDone 0).
Definition world_no_request : World :=
  sample_world ["local_code_ai_agent.py"] [] good_model all_ok (RunDone 0).
Definition world_empty_request : World :=
  sample_world ["local_code_ai_agent.py"; ""] ["n"] good_model all_ok
    (RunDone 0).

Definition sample_script : string := "/home/dev/agent/generated_script.py".

(** A state in which a longer script from an earlier run is on disk. *)
Definition after_earlier_run : State :=
  {| files := <[sample_script := "print('a much longer earlier script')"]>
                (files0 world_ok);
     unread := []; launched := 2; trace := [] |}.

Definition quoted_fence : string := LF +:+ "s = '```'" +:+ LF.

(** More sample worlds: a model that ends with an error code, one whose
    start raises another exception, a bundle that cannot be written, and a
    script that cannot be started. *)
Definition failing_model (n : nat) : popen_result :=
  PopenDone "" "Error: model not found" 1.

Definition broken_pipe_model (n : nat) : popen_result :=
  match n with
  | O => PopenDone sample_plan "pulling manifest" 0
  | _ => PopenError "[Errno 32] Broken pipe"
  end.

Definition bundle_unwritable (path : string) : write_result :=
  if PyStr.endswith path "generated_prompt.json"
  then WriteFailed "[Errno 28] No space left on device" (Some "")
  else WriteOk.

Definition world_model_fails : World :=
  sample_world agent_args ["y"; "y"] failing_model all_ok (RunDone 0).
Definition world_broken_pipe : World :=
  sample_world agent_args ["y"; "y"] broken_pipe_model all_ok (RunDone 0).
Definition world_bundle_fails : World :=
  sample_world agent_args ["y"; "n"] good_model bundle_unwritable (RunDone 0).
Definition world_no_answer : World :=
  sample_world agent_args ["y"] good_model all_ok (RunDone 0).
Definition world_no_launch : World :=
  sample_world agent_args ["y"; "y"] good_model all_ok
    (RunError "[Errno 13] Permission denied: '/usr/bin/python3'").

(** A model response that wraps a code text in fence markers: the opening
    marker carries the language tag or not, the closing one is plain. *)
Inductive fence := Tagged | Plain.

Definition opening (f : fence) : string :=
  match f with
  | Tagged => "```python"
  | Plain => "```"
  end.

Definition fenced (f : fence) (code : string) : string :=
  opening f +:+ code +:+ "```".

(** * Facts about the [str] methods *)

Section StrFacts.
Import PyStr.
#[local] Arguments String.append : simpl nomatch.

Lemma startswith_nil s : startswith s "" = true.
Proof. destruct s; reflexivity. Qed.

Lemma startswith_app s pre :
  startswith s pre = true <-> exists t, s = pre +:+ t.
Proof.
  revert s. induction pre as [|a pre IH]; intros s.
  - rewrite startswith_nil. split; eauto.
  - destruct s as [|b s]; simpl.
    + split; [discriminate | intros [t Ht]; discriminate].
    + rewrite andb_true_iff, IH. split.
      * intros [Hab [t ->]]. apply Ascii.eqb_eq in Hab as ->. eauto.
      * intros [t Ht]. injection Ht as -> ->.
        split; [apply Ascii.eqb_refl | eauto].
Qed.

Lemma startswith_self_app pre t : startswith (pre +:+ t) pre = true.
Proof. apply startswith_app. eauto. Qed.

Lemma startswith_app_l s t pre :
  startswith s pre = true -> startswith (s +:+ t) pre = true.
Proof.
  rewrite !startswith_app. intros [u ->]. exists (u +:+ t).
  clear. induction pre; simpl; congruence.
Qed.

Lemma startswith_shorter s p q :
  startswith s (p +:+ q) = true -> startswith s p = true.
Proof.
  rewrite !startswith_app. intros [u ->]. exists (q +:+ u).
  clear. induction p; simpl; congruence.
Qed.

Lemma contains_cons sub c s :
  contains sub (String c s) = startswith (String c s) sub || contains sub s.
Proof. reflexivity. Qed.

Lemma contains_app_l sub s t :
  contains sub s = true -> contains sub (s +:+ t) = true.
Proof.
  induction s as [|c s IH].
  - simpl. rewrite orb_false_r. destruct sub; [|discriminate].
    intros _. destruct t; reflexivity.
  - rewrite contains_cons. intros H. apply orb_true_iff in H as [H|H].
    + change (String c s +:+ t) with (String c (s +:+ t)).
      rewrite contains_cons.
      change (String c (s +:+ t)) with (String c s +:+ t).
      rewrite (startswith_app_l _ _ _ H). reflexivity.
    + change (String c s +:+ t) with (String c (s +:+ t)).
      rewrite contains_cons, (IH H). apply orb_true_r.
Qed.

Lemma contains_app_r sub s t :
  contains sub t = true -> contains sub (s +:+ t) = true.
Proof.
  intros H. induction s as [|c s IH]; [exact H|].
  change (String c s +:+ t) with (String c (s +:+ t)).
  rewrite contains_cons, IH. apply orb_true_r.
Qed.

Lemma contains_shorter p q s :
  contains (p +:+ q) s = true -> contains p s = true.
Proof.
  induction s as [|c s IH].
  - destruct p; [reflexivity|discriminate].
  - rewrite !contains_cons. intros H. apply orb_true_iff in H as [H|H].
    + apply startswith_shorter in H. rewrite H. reflexivity.
    + rewrite (IH H). apply orb_true_r.
Qed.

(** Passing over a match: the [skip] counter lands behind it. *)
Lemma replace_from_skip old new p s :
  replace_from old new (String.length p) (p +:+ s) = replace_from old new O s.
Proof. induction p as [|c p IH]; [reflexivity | exact IH]. Qed.

Lemma replace_from_match old new s :
  old <> "" ->
  replace_from old new O (old +:+ s) = new +:+ replace_from old new O s.
Proof.
  destruct old as [|c p]; [congruence|]. intros _.
  change (String c p +:+ s) with (String c (p +:+ s)).
  cbn [replace_from].
  change (String c (p +:+ s)) with (String c p +:+ s).
  rewrite startswith_self_app. cbn [String.length Nat.pred].
  rewrite replace_from_skip. reflexivity.
Qed.

Lemma replace_from_nomatch old new c s :
  startswith (String c s) old = false ->
  replace_from old new O (String c s) = String c (replace_from old new O s).
Proof. intros H. cbn [replace_from]. rewrite H. reflexivity. Qed.

(** Replacing what does not occur changes nothing. *)
Lemma replace_absent s old new :
  contains old s = false -> replace s old new = s.
Proof.
  destruct old as [|a old].
  - rewrite <- not_true_iff_false. intros H. destruct H.
    destruct s; reflexivity.
  - unfold replace. induction s as [|c s IH]; [reflexivity|].
    rewrite contains_cons. intros H. apply orb_false_iff in H as [H1 H2].
    rewrite replace_from_nomatch, IH; auto.
Qed.

(** ** Whitespace trimming *)

Lemma lstrip_head s :
  lstrip s = "" \/ exists c t, lstrip s = String c t /\ isspace c = false.
Proof.
  induction s as [|c s IH]; [left; reflexivity|].
  simpl. destruct (isspace c) eqn:Hc; [exact IH|]. right. eauto.
Qed.

Lemma lstrip_fixed c t : isspace c = false -> lstrip (String c t) = String c t.
Proof. intros H. simpl. rewrite H. reflexivity. Qed.

Lemma rstrip_cons c s :
  rstrip (String c s) =
  match rstrip s with
  | EmptyString => if isspace c then EmptyString else String c EmptyString
  | r => String c r
  end.
Proof. reflexivity. Qed.

Lemma rstrip_idem s : rstrip (rstrip s) = rstrip s.
Proof.
  induction s as [|c s IH]; [reflexivity|].
  rewrite rstrip_cons. destruct (rstrip s) as [|d r] eqn:Hr.
  - destruct (isspace c) eqn:Hc; [reflexivity|].
    simpl. rewrite Hc. reflexivity.
  - rewrite rstrip_cons, IH. reflexivity.
Qed.

(** [rstrip] keeps a prefix, [lstrip] a suffix. *)
Lemma rstrip_prefix s : exists t, s = rstrip s +:+ t.
Proof.
  induction s as [|c s [t IH]]; [exists ""; reflexivity|].
  rewrite rstrip_cons. destruct (rstrip s) as [|d r].
  - destruct (isspace c).
    + exists (String c s). reflexivity.
    + exists t. simpl in *. congruence.
  - exists t. simpl in *. congruence.
Qed.

Lemma lstrip_suffix s : exists t, s = t +:+ lstrip s.
Proof.
  induction s as [|c s [t IH]]; [exists ""; reflexivity|].
  simpl. destruct (isspace c).
  - exists (String c t). simpl. congruence.
  - exists "". reflexivity.
Qed.

Lemma rstrip_head c t :
  isspace c = false -> exists r, rstrip (String c t) = String c r.
Proof.
  intros H. rewrite rstrip_cons. destruct (rstrip t); rewrite ?H; eauto.
Qed.

Lemma strip_idem s : strip (strip s) = strip s.
Proof.
  unfold strip. destruct (lstrip_head s) as [-> | (c & t & -> & Hc)].
  - reflexivity.
  - destruct (rstrip_head c t Hc) as [r Hr].
    rewrite Hr, (lstrip_fixed c r Hc), <- Hr. apply rstrip_idem.
Qed.

Lemma contains_strip sub s :
  contains sub s = false -> contains sub (strip s) = false.
Proof.
  intros H. apply not_true_iff_false. intros Hs.
  apply not_true_iff_false in H. apply H. unfold strip in Hs.
  destruct (lstrip_suffix s) as [t ->]. apply contains_app_r.
  destruct (rstrip_prefix (lstrip s)) as [u ->]. apply contains_app_l.
  exact Hs.
Qed.

(** ** Removing the plain fence leaves no fence behind *)

Lemma startswith_head_neq a c s pre :
  a <> c -> startswith (String c s) (String a pre) = false.
Proof.
  intros H. cbn [startswith]. apply Ascii.eqb_neq in H. rewrite H. reflexivity.
Qed.

Lemma unfence_head (n : nat) : forall s,
  (String.length s <= n)%nat ->
  startswith (replace_from "```" "" O s) "```" = false.
Proof.
  induction n as [|n IH]; intros s Hn.
  { destruct s; [reflexivity | simpl in Hn; lia]. }
  destruct s as [|a s]; [reflexivity|].
  destruct (Ascii.eqb_spec "`" a) as [<-|Ha].
  2:{ rewrite replace_from_nomatch by (apply startswith_head_neq, Ha).
      apply startswith_head_neq, Ha. }
  destruct s as [|b s]; [reflexivity|].
  destruct (Ascii.eqb_spec "`" b) as [<-|Hb].
  2:{ rewrite replace_from_nomatch
        by (cbn [startswith]; apply Ascii.eqb_neq in Hb; rewrite Hb; reflexivity).
      rewrite replace_from_nomatch by (apply startswith_head_neq, Hb).
      cbn [startswith]. apply Ascii.eqb_neq in Hb. rewrite Hb. reflexivity. }
  destruct s as [|c s]; [reflexivity|].
  destruct (Ascii.eqb_spec "`" c) as [<-|Hc].
  2:{ assert (Hc' := Hc). apply Ascii.eqb_neq in Hc'.
      rewrite replace_from_nomatch by (cbn [startswith]; rewrite Hc'; reflexivity).
      rewrite replace_from_nomatch by (cbn [startswith]; rewrite Hc'; reflexivity).
      rewrite replace_from_nomatch by (apply startswith_head_neq, Hc).
      cbn [startswith]. rewrite Hc'. reflexivity. }
  change (String "`" (String "`" (String "`" s))) with ("```" +:+ s).
  rewrite replace_from_match by discriminate.
  apply IH. simpl in Hn. lia.
Qed.

Lemma unfence_clean (n : nat) : forall s,
  (String.length s <= n)%nat ->
  contains "```" (replace_from "```" "" O s) = false.
Proof.
  induction n as [|n IH]; intros s Hn.
  { destruct s; [reflexivity | simpl in Hn; lia]. }
  destruct s as [|a s]; [reflexivity|].
  destruct (startswith (String a s) "```") eqn:Hs.
  - apply startswith_app in Hs as [t Ht]. rewrite Ht.
    rewrite replace_from_match by discriminate.
    apply IH. apply (f_equal String.length) in Ht. simpl in Ht, Hn.
    injection Ht as Ht. lia.
  - pose proof (unfence_head (S n) (String a s) Hn) as Hh.
    rewrite replace_from_nomatch in Hh |- * by exact Hs.
    rewrite contains_cons, Hh. apply IH. simpl in Hn. lia.
Qed.

Lemma replace_fence_clean s : contains "```" (replace s "```" "") = false.
Proof. apply (unfence_clean (String.length s)). lia. Qed.

(** ** The closing fence and the tag *)

Lemma unfence_close code :
  contains "```" code = false ->
  replace_from "```" "" O (code +:+ "```") = code.
Proof.
  induction code as [|a code IH]; [reflexivity|].
  rewrite contains_cons. intros H. apply orb_false_iff in H as [H1 H2].
  change (String a code +:+ "```") with (String a (code +:+ "```")).
  destruct (startswith (String a (code +:+ "```")) "```") eqn:E.
  - cbn [startswith] in E. apply andb_true_iff in E as [Ea E].
    apply Ascii.eqb_eq in Ea as <-.
    destruct code as [|b code]; [reflexivity|].
    cbn [startswith String.append] in E. apply andb_true_iff in E as [Eb E].
    apply Ascii.eqb_eq in Eb as <-.
    destruct code as [|c code]; [reflexivity|].
    cbn [startswith String.append] in E. apply andb_true_iff in E as [Ec _].
    apply Ascii.eqb_eq in Ec as <-. cbn in H1.
    rewrite startswith_nil in H1. discriminate H1.
  - rewrite replace_from_nomatch by exact E. rewrite IH by exact H2.
    reflexivity.
Qed.

Lemma startswith_tag_app_fence x :
  startswith (x +:+ "```") "```python" = startswith x "```python".
Proof.
  do 9 (destruct x as [|? x];
        [cbn [startswith String.append];
         repeat (destruct (Ascii.eqb _ _); try reflexivity)|]).
  cbn [startswith String.append]. rewrite !startswith_nil. reflexivity.
Qed.

Lemma contains_tag_app_fence x :
  contains "```python" (x +:+ "```") = contains "```python" x.
Proof.
  induction x as [|a x IH]; [reflexivity|].
  change (String a x +:+ "```") with (String a (x +:+ "```")).
  rewrite !contains_cons, IH. f_equal.
  apply (startswith_tag_app_fence (String a x)).
Qed.

Lemma no_fence_no_tag s :
  contains "```" s = false -> contains "```python" s = false.
Proof.
  intros H. apply not_true_iff_false. intros Ht.
  apply (contains_shorter "```" "python") in Ht. congruence.
Qed.

End StrFacts.

(** * Facts about the paths *)

Section PathFacts.
Import PyStr PosixPath.
#[local] Arguments String.append : simpl nomatch.

Lemma app_assoc_s (a b c : string) : (a +:+ b) +:+ c = a +:+ (b +:+ c).
Proof. induction a; simpl; congruence. Qed.

Lemma endswith_app s suf : endswith s suf = true <-> exists a, s = a +:+ suf.
Proof.
  induction s as [|c s IH].
  - cbn [endswith]. rewrite orb_false_r, String.eqb_eq. split.
    + intros <-. exists "". reflexivity.
    + intros [a Ha]. destruct a; [exact Ha | discriminate].
  - cbn [endswith]. rewrite orb_true_iff, String.eqb_eq, IH. split.
    + intros [<- | [a ->]]; [exists ""|exists (String c a)]; reflexivity.
    + intros [[|d a] Ha]; [left; exact Ha|].
      right. injection Ha as -> ->. eauto.
Qed.

Lemma split_nonempty s : split s <> [].
Proof.
  induction s as [|c s IH]; [discriminate|].
  simpl. destruct (Ascii.eqb c "/"); [discriminate|].
  destruct (split s); [congruence|discriminate].
Qed.

Lemma split_app_sep a b : split (a +:+ "/" +:+ b) = split a ++ split b.
Proof.
  induction a as [|c a IH]; [reflexivity|].
  change (String c a +:+ "/" +:+ b) with (String c (a +:+ "/" +:+ b)).
  cbn [split]. rewrite IH. destruct (Ascii.eqb c "/"); [reflexivity|].
  pose proof (split_nonempty a). destruct (split a); [congruence|reflexivity].
Qed.

Lemma join_sep_last l b : exists d, join_sep (l ++ [b]) = d +:+ b.
Proof.
  induction l as [|c l [d IH]]; [exists ""; reflexivity|].
  destruct l as [|c' l].
  - exists (c +:+ "/"). simpl. rewrite app_assoc_s. reflexivity.
  - exists (c +:+ "/" +:+ d).
    change (join_sep ((c :: c' :: l) ++ [b]))
      with (c +:+ "/" +:+ join_sep ((c' :: l) ++ [b])).
    rewrite IH, !app_assoc_s. reflexivity.
Qed.

Section KeepName.
Variable name : string.
Hypothesis name_plain : split name = [name].
Hypothesis name_proper :
  String.eqb name "" || String.eqb name "." || String.eqb name ".." = false.

Lemma norm_step_name n acc : norm_step n acc name = acc ++ [name].
Proof.
  unfold norm_step. apply orb_false_iff in name_proper as [H1 H3].
  rewrite H1, H3. reflexivity.
Qed.

Lemma name_not_abs : startswith name "/" = false.
Proof.
  destruct name as [|c s]; [reflexivity|].
  cbn [startswith]. rewrite startswith_nil, andb_true_r.
  destruct (Ascii.eqb_spec "/" c) as [<-|]; [|reflexivity].
  simpl in name_plain. discriminate.
Qed.

Lemma normpath_keeps_name pre :
  (pre = "" \/ exists a, pre = a +:+ "/") ->
  exists d, normpath (pre +:+ name) = d +:+ name.
Proof.
  intros Hpre.
  assert (exists l, split (pre +:+ name) = l ++ [name]) as [l Hl].
  { destruct Hpre as [-> | [a ->]].
    - exists []. exact name_plain.
    - exists (split a). rewrite app_assoc_s, split_app_sep, name_plain.
      reflexivity. }
  unfold normpath. rewrite Hl, fold_left_app. cbn [fold_left].
  rewrite norm_step_name.
  destruct (join_sep_last
              (fold_left
                 (norm_step
                    (if startswith (pre +:+ name) "/"
                     then if startswith (pre +:+ name) "//"
                               && negb (startswith (pre +:+ name) "///")
                          then 2%nat else 1%nat
                     else 0%nat)) l []) name) as [d ->].
  rewrite <- app_assoc_s.
  assert (Hne : forall x, String.eqb (x +:+ name) "" = false).
  { intros x. apply String.eqb_neq. intros E.
    destruct x; simpl in E; [|discriminate]. subst name. discriminate. }
  rewrite !Hne. eauto.
Qed.

Lemma abspath_keeps_name cwd : exists d, abspath cwd name = d +:+ name.
Proof.
  unfold abspath, isabs, join. rewrite name_not_abs.
  destruct (String.eqb_spec cwd "") as [->|_].
  - apply (normpath_keeps_name ""). left. reflexivity.
  - cbn [orb]. destruct (endswith cwd "/") eqn:E.
    + apply normpath_keeps_name. right. apply endswith_app, E.
    + rewrite <- app_assoc_s. apply normpath_keeps_name. right. eauto.
Qed.

End KeepName.

Lemma abspath_script cwd :
  exists d, abspath cwd "generated_script.py" = d +:+ "generated_script.py".
Proof. apply abspath_keeps_name; reflexivity. Qed.

Lemma abspath_script_py cwd :
  endswith (abspath cwd "generated_script.py") ".py" = true.
Proof.
  destruct (abspath_script cwd) as [d ->]. apply endswith_app.
  exists (d +:+ "generated_script"). rewrite app_assoc_s. reflexivity.
Qed.

End PathFacts.

(** * Facts about the program *)

Section StoreFacts.
Import PyStr PosixPath.
Variable w : World.

(** The two savers never fail: they report and return. *)
Lemma save_prompt_to_file_eq plan_text code_text user_request filename st :
  save_prompt_to_file w plan_text code_text user_request filename st =
  let content := bundle w plan_text code_text user_request in
  let r := fs_write w filename content in
  (Ret tt,
   {| files := written w filename content (files st);
      unread := unread st; launched := launched st;
      trace := trace st ++ [EvOpen filename content r;
                            EvStdout (prompt_report filename r)] |}).
Proof.
  cbv beta zeta delta [save_prompt_to_file bundle bind open_write print emit].
  destruct (fs_write w filename _); cbn [files unread launched trace];
    rewrite <- List.app_assoc; reflexivity.
Qed.

Lemma save_code_to_file_eq code_text filename st :
  save_code_to_file w code_text filename st =
  let content := code_text +:+ LF in
  let r := fs_write w (script_path w) content in
  (Ret tt,
   {| files := written w (script_path w) content (files st);
      unread := unread st; launched := launched st;
      trace := trace st ++ [EvOpen (script_path w) content r;
                            EvStdout (script_report (script_path w) r)] |}).
Proof.
  cbv beta zeta delta
    [save_code_to_file script_path bind open_write print emit].
  destruct (fs_write w _ _); cbn [files unread launched trace];
    rewrite <- List.app_assoc; reflexivity.
Qed.

End StoreFacts.

(** Symbolic execution of a run: every interaction with the world is split
    into its possible answers, until the outcome is explicit. *)
Ltac innermost x :=
  lazymatch x with
  | context [match ?y with _ => _ end] => innermost y
  | _ => x
  end.

Ltac exec_cbv E :=
  cbv beta iota zeta delta
      [bind ret print eprint emit sys_exit input popen_communicate
       subprocess_run query_ollama plan_phase code_phase
       execute_script init
       files unread launched trace negb app] in E.

Ltac exec_step E :=
  exec_cbv E;
  repeat (first [ rewrite save_prompt_to_file_eq in E
                | rewrite save_code_to_file_eq in E
                | rewrite abspath_script_py in E ];
          exec_cbv E).

Ltac exec E :=
  exec_step E;
  repeat (match type of E with
          | context [match ?x with _ => _ end] =>
              let y := innermost x in destruct y eqn:?
          end; exec_step E).

Ltac split_in H :=
  cbn [In] in H;
  repeat (destruct H as [H|H]; [try discriminate H|]);
  try contradiction.

Ltac pick_event := repeat (first [left; reflexivity | right]).

Section ProgramFacts.
Import PyStr PosixPath.

Lemma questions_differ : plan_question <> exec_question "generated_script.py".
Proof. vm_compute. discriminate. Qed.

Lemma script_path_not_bundle w : "generated_prompt.json" <> script_path w.
Proof.
  intros E. pose proof (abspath_script_py (cwd w)) as H.
  fold (script_path w) in H. rewrite <- E in H. vm_compute in H.
  discriminate H.
Qed.

Lemma lower_char_y c : lower_char c = "y"%char <-> c = "y"%char \/ c = "Y"%char.
Proof.
  destruct c as [[] [] [] [] [] [] [] []]; vm_compute;
    intuition discriminate.
Qed.

Lemma lower_y s : lower s = "y" <-> s = "y" \/ s = "Y".
Proof.
  destruct s as [|c [|d s]]; cbn [lower].
  - intuition discriminate.
  - split.
    + intros H. injection H as H. apply lower_char_y in H as [->| ->]; auto.
    + intros [H|H]; injection H as ->; reflexivity.
  - intuition discriminate.
Qed.

(** Claim C7. In every run in which starting the model runner raises
    [FileNotFoundError] (at the plan stage or at the code stage), the
    interpreter exits with status 1, no file is ever opened for writing,
    and the files are those the run started with. *)
Theorem model_runner_missing_exits (w : World) cmd text :
  In (EvPopen cmd text PopenNotFound) (trace (snd (run w))) ->
  exit_code (fst (run w)) = 1
  /\ filter is_open (trace (snd (run w))) = []
  /\ files (snd (run w)) = files0 w.
Proof.
  destruct (run w) as [res st] eqn:E. unfold run, main in E.
  exec E; injection E as <- <-; intros H; cbn [fst snd trace files] in *;
    split_in H; repeat split; reflexivity.
Qed.

(** Claim C5. In every run in which the answer typed at the first prompt
    is not [y] after [strip().lower()], the program leaves through
    [sys.exit(0)] right after the line "User aborted after Plan Phase.":
    the model was asked once (for the plan), nothing was written and
    nothing was executed. *)
Theorem plan_refused_aborts (w : World) (a : string) :
  In (EvInput plan_question (Some a)) (trace (snd (run w))) ->
  lower (strip a) <> "y" ->
  fst (run w) = SysExit 0
  /\ List.last (trace (snd (run w))) (EvStdout "")
     = EvStdout "[INFO] User aborted after Plan Phase."
  /\ List.length (filter is_popen (trace (snd (run w)))) = 1%nat
  /\ filter is_open (trace (snd (run w))) = []
  /\ filter is_run (trace (snd (run w))) = []
  /\ files (snd (run w)) = files0 w.
Proof.
  destruct (run w) as [res st] eqn:E. unfold run, main in E.
  exec E; injection E as <- <-; intros H Ha; cbn [fst snd trace files] in *;
    split_in H;
    try (injection H as Hq _; symmetry in Hq; destruct (questions_differ Hq));
    injection H as ->;
    try match goal with
        | Hb : String.eqb ?x "y" = true, Hn : ?x <> "y" |- _ =>
            apply String.eqb_eq in Hb; contradiction
        end;
    repeat split; reflexivity.
Qed.

(** Claim C6. In every run in which the generated script was started and
    ended with a non-zero return code (which takes two approving answers),
    [main] returns normally, the exit status is 0, the last line printed
    is "[INFO] Done." and the failing return code was printed. *)
Theorem failing_script_still_done (w : World) cmd (rc : Z) :
  In (EvRun cmd (RunDone rc)) (trace (snd (run w))) ->
  rc <> 0 ->
  fst (run w) = Ret tt
  /\ exit_code (fst (run w)) = 0
  /\ List.last (trace (snd (run w))) (EvStdout "") = EvStdout "[INFO] Done."
  /\ In (EvStdout ("[ERROR] Script execution failed with code "
                   +:+ str_of_Z rc +:+ ": "
                   +:+ called_process_error_str w cmd rc))
        (trace (snd (run w))).
Proof.
  destruct (run w) as [res st] eqn:E. unfold run, main in E.
  exec E; injection E as <- <-; intros H Hrc; cbn [fst snd trace files] in *;
    split_in H; injection H as <- <-;
    try match goal with
        | Hb : Z.eqb ?z 0 = true |- _ => apply Z.eqb_eq in Hb; contradiction
        end;
    repeat split; try reflexivity; pick_event.
Qed.

Ltac not_the_plan_question H :=
  let Hq := fresh in
  injection H as Hq _; destruct (questions_differ Hq).

Ltac not_the_exec_question H :=
  let Hq := fresh in
  injection H as Hq _; symmetry in Hq; destruct (questions_differ Hq).

Ltac answer_clash :=
  match goal with
  | Hb : String.eqb ?x "y" = false, Hy : ?x = "y" |- _ =>
      rewrite Hy in Hb; discriminate Hb
  end.

(** Claim C1, as amended. When the write of the script file fails,
    [save_code_to_file] prints its error line and returns: the run goes on
    to the execution prompt, and on an approving answer the script path is
    handed to the interpreter. *)
Theorem script_save_failure_continues (w : World) content msg residue :
  In (EvOpen (script_path w) content (WriteFailed msg residue))
     (trace (snd (run w))) ->
  In (EvStdout ("[ERROR] Could not write to " +:+ script_path w
                +:+ ": " +:+ msg))
     (trace (snd (run w)))
  /\ (exists answer,
        In (EvInput (exec_question "generated_script.py") answer)
           (trace (snd (run w))))
  /\ (forall a,
        In (EvInput (exec_question "generated_script.py") (Some a))
           (trace (snd (run w))) ->
        lower (strip a) = "y" ->
        exists r, In (EvRun [executable w; script_path w] r)
                     (trace (snd (run w)))).
Proof.
  destruct (run w) as [res st] eqn:E. unfold run, main in E.
  exec E; injection E as <- <-; intros H; cbn [fst snd trace files] in *;
    split_in H;
    try (injection H as Hp _ _; destruct (script_path_not_bundle w Hp));
    injection H as <- Hw;
    (split; [rewrite Hw; pick_event|]);
    (split; [eexists; pick_event|]);
    intros a Ha Hy; split_in Ha; try not_the_plan_question Ha;
    injection Ha as <-; try answer_clash;
    eexists; pick_event.
Qed.

Ltac answer_known :=
  match goal with
  | Hb : String.eqb ?x "y" = _ |- _ => rewrite Hb
  end.

(** Claim C10. At both prompts the answer is compared with [y] after
    [strip().lower()]: the run goes on (to the second model call, resp. to
    the start of the script) exactly when the comparison succeeds, and
    otherwise ends with [sys.exit(0)]. [Y] and [  y  ] pass, [yes] does
    not; passing means that the trimmed answer is [y] or [Y]. *)
Theorem approval_gates_compare_y (w : World) (a : string) :
  (In (EvInput plan_question (Some a)) (trace (snd (run w))) ->
   if String.eqb (lower (strip a)) "y"
   then List.length (filter is_popen (trace (snd (run w)))) = 2%nat
   else fst (run w) = SysExit 0
        /\ List.length (filter is_popen (trace (snd (run w)))) = 1%nat
        /\ filter is_open (trace (snd (run w))) = [])
  /\ (In (EvInput (exec_question "generated_script.py") (Some a))
         (trace (snd (run w))) ->
      if String.eqb (lower (strip a)) "y"
      then exists r, In (EvRun [executable w; script_path w] r)
                        (trace (snd (run w)))
      else fst (run w) = SysExit 0
           /\ filter is_run (trace (snd (run w))) = [])
  /\ lower (strip "Y") = "y"
  /\ lower (strip "  y  ") = "y"
  /\ lower (strip "yes") <> "y"
  /\ (lower (strip a) = "y" <-> strip a = "y" \/ strip a = "Y").
Proof.
  destruct (run w) as [res st] eqn:E. unfold run, main in E.
  split; [|split; [|split; [reflexivity|split; [reflexivity|
    split; [vm_compute; discriminate|apply lower_y]]]]].
  - exec E; injection E as <- <-; intros H; cbn [fst snd trace files] in *;
      split_in H; try not_the_exec_question H;
      injection H as <-; answer_known; repeat split; reflexivity.
  - exec E; injection E as <- <-; intros H; cbn [fst snd trace files] in *;
      split_in H; try not_the_plan_question H;
      injection H as <-; answer_known;
      first [ split; reflexivity | eexists; pick_event ].
Qed.

(** Claim C4, as amended. Without a positional argument the program prints
    the usage line on standard output and exits with status 1, having done
    nothing else. With an argument, whatever its text (the empty text
    too), the plan prompt is sent to the model. *)
Theorem missing_request_usage (w : World) :
  ((List.length (argv w) < 2)%nat ->
   run w = (SysExit 1,
            {| files := files0 w; unread := stdin w; launched := 0;
               trace := [EvStdout (usage w)] |}))
  /\ (forall prog request rest,
        argv w = prog :: request :: rest ->
        In (EvPopen ollama_cmd (plan_prompt request)
              (popen w 0 ollama_cmd (plan_prompt request)))
           (trace (snd (run w)))).
Proof.
  split.
  - intros H. unfold run, main.
    destruct (argv w) as [|prog [|request rest]];
      [reflexivity | reflexivity | simpl in H; lia].
  - intros prog request rest Hargv.
    destruct (run w) as [res st] eqn:E. unfold run, main in E.
    rewrite Hargv in E. cbn [snd]. unfold ollama_cmd.
    exec E; injection E as <- <-; cbn [trace]; pick_event.
Qed.

(** Claim C2, as amended. [execute_script] starts the interpreter exactly
    when the absolute form of its argument ends in [.py], without looking
    at the files; otherwise it prints the extension error, starts nothing
    and leaves the files alone. It always returns. *)
Theorem execute_script_checks_extension (w : World) path st :
  let p := abspath (cwd w) path in
  let out := execute_script w path st in
  fst out = Ret tt
  /\ (endswith p ".py" = true ->
      exists r, In (EvRun [executable w; p] r) (trace (snd out)))
  /\ (endswith p ".py" = false ->
      trace (snd out)
      = trace st
        ++ [EvStdout ("[INFO] Running the script at: " +:+ p);
            EvStdout "[ERROR] The generated script does not have a valid Python extension."]
      /\ files (snd out) = files st).
Proof.
  destruct st as [fs un la tr].
  cbv beta iota zeta delta
    [execute_script bind print emit subprocess_run
     files unread launched trace].
  destruct (endswith (abspath (cwd w) path) ".py") eqn:Hpy; cbn [negb].
  - destruct (spawn w [executable w; abspath (cwd w) path] fs) as [r fs'].
    assert (Hev : In (EvRun [executable w; abspath (cwd w) path] r)
                     ((tr ++ [EvStdout ("[INFO] Running the script at: "
                                        +:+ abspath (cwd w) path)])
                      ++ [EvRun [executable w; abspath (cwd w) path] r]))
      by (rewrite !in_app_iff; cbn [In]; auto).
    split; [|split; [intros _; exists r|discriminate]];
      (destruct r as [rc|e]; [destruct (rc =? 0)|]); cbn [fst snd trace];
      try reflexivity; apply in_app_iff; left; exact Hev.
  - split; [reflexivity|split; [discriminate|intros _]].
    cbn [fst snd trace files]. rewrite <- List.app_assoc. split; reflexivity.
Qed.

(** Claim C3, as amended. [save_code_to_file] ignores its [filename]
    argument and opens the absolute path of [generated_script.py] in the
    working directory, the same path for all runs started in the same
    directory; after a successful write the file holds the code and a
    newline, whatever it held before. *)
Theorem save_code_fixed_name (w : World) code filename st :
  let out := save_code_to_file w code filename st in
  out = save_code_to_file w code "generated_script.py" st
  /\ fst out = Ret tt
  /\ (exists r line,
        trace (snd out)
        = trace st
          ++ [EvOpen (abspath (cwd w) "generated_script.py")
                (code +:+ LF) r;
              EvStdout line])
  /\ (fs_write w (script_path w) (code +:+ LF) = WriteOk ->
      files (snd out) !! abspath (cwd w) (script_path w)
      = Some (code +:+ LF))
  /\ (forall w', cwd w' = cwd w -> script_path w' = script_path w).
Proof.
  cbv zeta. rewrite !save_code_to_file_eq. cbv zeta.
  cbn [fst snd trace files].
  split; [reflexivity|split; [reflexivity|split; [eauto|split]]].
  - intros Hok. unfold written. rewrite Hok. apply lookup_insert_eq.
  - intros w' Hcwd. unfold script_path. rewrite Hcwd. reflexivity.
Qed.

(** Claim C8. Removing the fences and trimming twice gives what doing it
    once gives. *)
Theorem clean_code_idempotent (T : string) :
  clean_code (clean_code T) = clean_code T.
Proof.
  unfold clean_code at 1.
  assert (Hf : contains "```" (clean_code T) = false)
    by (apply contains_strip, replace_fence_clean).
  rewrite (replace_absent _ "```python") by (apply no_fence_no_tag, Hf).
  rewrite (replace_absent _ "```") by exact Hf.
  apply strip_idem.
Qed.

Lemma replace_match s old new :
  old <> "" -> replace (old +:+ s) old new = new +:+ replace s old new.
Proof.
  intros H. unfold replace. destruct old; [congruence|].
  apply replace_from_match. discriminate.
Qed.

Lemma app_nil_s (x : string) : "" +:+ x = x.
Proof. reflexivity. Qed.

Lemma replace_close code :
  contains "```" code = false -> replace (code +:+ "```") "```" "" = code.
Proof. apply unfence_close. Qed.

Lemma clean_code_tagged code :
  contains "```" code = false ->
  clean_code (fenced Tagged code) = strip code.
Proof.
  intros H. unfold clean_code, fenced, opening.
  rewrite replace_match by discriminate. rewrite app_nil_s.
  rewrite (replace_absent (code +:+ "```") "```python").
  2:{ rewrite contains_tag_app_fence. apply no_fence_no_tag, H. }
  rewrite replace_close by exact H. reflexivity.
Qed.

Lemma clean_code_plain code :
  contains "```" code = false ->
  contains "```python" ("```" +:+ code) = false ->
  clean_code (fenced Plain code) = strip code.
Proof.
  intros H Ht. unfold clean_code, fenced, opening.
  rewrite (replace_absent _ "```python").
  2:{ rewrite <- app_assoc_s, contains_tag_app_fence. exact Ht. }
  rewrite replace_match by discriminate. rewrite app_nil_s.
  rewrite replace_close by exact H. reflexivity.
Qed.

Lemma clean_code_no_fence T :
  contains "```" (clean_code T) = false
  /\ contains "```python" (clean_code T) = false.
Proof.
  assert (Hf : contains "```" (clean_code T) = false)
    by (apply contains_strip, replace_fence_clean).
  split; [exact Hf | apply no_fence_no_tag, Hf].
Qed.

(** Claim C9, as amended. For a response that wraps [code] in an opening
    fence (tagged or plain) and a closing fence, where [code] itself holds
    no fence and, under a plain opening fence, does not complete it to the
    tagged one, the cleaned text is [code] trimmed. No cleaned text holds a
    fence. The sample response gives the two sample lines, also through
    [code_phase]. *)
Theorem fenced_code_is_unwrapped (f : fence) (code : string) :
  contains "```" code = false ->
  (f = Plain -> contains "```python" ("```" +:+ code) = false) ->
  clean_code (fenced f code) = strip code
  /\ (forall T, contains "```" (clean_code T) = false
                /\ contains "```python" (clean_code T) = false)
  /\ clean_code sample_response = sample_code
  /\ (forall w plan request st err,
        popen w (launched st) ollama_cmd (code_prompt plan request)
        = PopenDone sample_response err 0 ->
        fst (code_phase w plan request st) = Ret sample_code).
Proof.
  intros H Hp. split; [|split; [|split]].
  - destruct f; [apply clean_code_tagged, H|].
    apply clean_code_plain; auto.
  - apply clean_code_no_fence.
  - reflexivity.
  - intros w plan request st err Hm.
    cbv beta zeta delta
      [code_phase query_ollama bind print emit popen_communicate].
    cbn [files unread launched trace]. unfold ollama_cmd in Hm. rewrite Hm.
    destruct (String.eqb err ""); reflexivity.
Qed.

End ProgramFacts.

(** * The theorems at concrete runs *)

Section Examples.
Import PyStr PosixPath.

(** Claim C1 as stated fails: the write of the script fails, and the run
    still asks for approval and starts the script. *)
Lemma script_save_failure_counterexample :
  In (EvOpen sample_script (sample_code +:+ LF)
        (WriteFailed "[Errno 13] Permission denied" None))
     (trace (snd (run world_unwritable)))
  /\ In (EvInput (exec_question "generated_script.py") (Some "y"))
        (trace (snd (run world_unwritable)))
  /\ In (EvRun ["/usr/bin/python3"; sample_script] (RunDone 0))
        (trace (snd (run world_unwritable)))
  /\ fst (run world_unwritable) = Ret tt.
Proof. vm_compute. repeat split; pick_event. Qed.

(** The amended C1 in a world where the script cannot be written. *)
Lemma script_save_failure_continues_witness :
  In (EvOpen (script_path world_unwritable) (sample_code +:+ LF)
        (WriteFailed "[Errno 13] Permission denied" None))
     (trace (snd (run world_unwritable)))
  /\ exists r,
       In (EvRun [executable world_unwritable; script_path world_unwritable] r)
          (trace (snd (run world_unwritable))).
Proof.
  assert (H : In (EvOpen (script_path world_unwritable) (sample_code +:+ LF)
                    (WriteFailed "[Errno 13] Permission denied" None))
                 (trace (snd (run world_unwritable))))
    by (vm_compute; pick_event).
  split; [exact H|].
  destruct (script_save_failure_continues world_unwritable _ _ _ H)
    as (_ & _ & Hrun).
  apply (Hrun "y"); [vm_compute; pick_event | reflexivity].
Defined.

(** Claim C2 as stated fails: no file [missing.py] exists, and the
    interpreter is started on it. *)
Lemma execute_script_counterexample :
  files (init world_ok) !! abspath (cwd world_ok) "missing.py" = None
  /\ In (EvRun ["/usr/bin/python3"; "/home/dev/agent/missing.py"] (RunDone 0))
        (trace (snd (execute_script world_ok "missing.py" (init world_ok)))).
Proof. split; [reflexivity | vm_compute; pick_event]. Qed.

(** The amended C2 at [missing.py] and at [notes.txt]. *)
Lemma execute_script_checks_extension_witness :
  (exists r,
     In (EvRun [executable world_ok; abspath (cwd world_ok) "missing.py"] r)
        (trace (snd (execute_script world_ok "missing.py" (init world_ok)))))
  /\ trace (snd (execute_script world_ok "notes.txt" (init world_ok)))
     = [EvStdout "[INFO] Running the script at: /home/dev/agent/notes.txt";
        EvStdout "[ERROR] The generated script does not have a valid Python extension."].
Proof.
  split.
  - destruct (execute_script_checks_extension world_ok "missing.py"
                (init world_ok)) as (_ & Hrun & _).
    apply Hrun. reflexivity.
  - destruct (execute_script_checks_extension world_ok "notes.txt"
                (init world_ok)) as (_ & _ & Hno).
    destruct Hno as [Htr _]; [reflexivity|]. rewrite Htr. reflexivity.
Defined.

(** Claim C3 as stated fails: started in two directories, the program
    writes two different files. *)
Lemma save_code_counterexample :
  filter is_open
    (trace (snd (save_code_to_file world_ok "x = 1" "generated_script.py"
                   (init world_ok))))
  = [EvOpen "/home/dev/agent/generated_script.py" ("x = 1" +:+ LF) WriteOk]
  /\ filter is_open
       (trace (snd (save_code_to_file (in_dir "/tmp" world_ok) "x = 1"
                      "generated_script.py" (init (in_dir "/tmp" world_ok)))))
     = [EvOpen "/tmp/generated_script.py" ("x = 1" +:+ LF) WriteOk]
  /\ script_path world_ok <> script_path (in_dir "/tmp" world_ok).
Proof.
  split; [reflexivity|split; [reflexivity|]]. vm_compute. discriminate.
Qed.

(** The amended C3 over a longer script left by an earlier run. *)
Lemma save_code_fixed_name_witness :
  files (snd (save_code_to_file world_ok "x = 1" "other.py"
                after_earlier_run)) !! sample_script
  = Some ("x = 1" +:+ LF).
Proof.
  destruct (save_code_fixed_name world_ok "x = 1" "other.py"
              after_earlier_run) as (_ & _ & _ & Hfile & _).
  apply Hfile. reflexivity.
Defined.

(** Claim C4 as stated fails: the empty request reaches the model, and
    the usage line goes to standard output. *)
Lemma missing_request_counterexample :
  In (EvPopen ollama_cmd (plan_prompt "") (PopenDone sample_plan "" 0))
     (trace (snd (run world_empty_request)))
  /\ fst (run world_empty_request) = SysExit 0
  /\ trace (snd (run world_no_request))
     = [EvStdout ("Usage: python local_code_ai_agent.py " +:+ DQ
                  +:+ "Your request here" +:+ DQ)]
  /\ filter is_stderr (trace (snd (run world_no_request))) = [].
Proof. vm_compute. repeat split; pick_event. Qed.

(** The amended C4 without an argument and with an empty one. *)
Lemma missing_request_usage_witness :
  exit_code (fst (run world_no_request)) = 1
  /\ trace (snd (run world_no_request)) = [EvStdout (usage world_no_request)]
  /\ In (EvPopen ollama_cmd (plan_prompt "")
           (popen world_empty_request 0 ollama_cmd (plan_prompt "")))
        (trace (snd (run world_empty_request))).
Proof.
  destruct (missing_request_usage world_no_request) as [Husage _].
  destruct (missing_request_usage world_empty_request) as [_ Hplan].
  rewrite Husage by (cbn; lia).
  split; [reflexivity|split; [reflexivity|]].
  apply (Hplan "local_code_ai_agent.py" "" []). reflexivity.
Defined.

(** C5 at the answer [no]. *)
Lemma plan_refused_aborts_witness :
  fst (run world_refused) = SysExit 0
  /\ List.last (trace (snd (run world_refused))) (EvStdout "")
     = EvStdout "[INFO] User aborted after Plan Phase."
  /\ List.length (filter is_popen (trace (snd (run world_refused)))) = 1%nat
  /\ filter is_open (trace (snd (run world_refused))) = []
  /\ filter is_run (trace (snd (run world_refused))) = []
  /\ files (snd (run world_refused)) = files0 world_refused.
Proof.
  apply (plan_refused_aborts world_refused "no").
  - vm_compute. pick_event.
  - vm_compute. discriminate.
Defined.

(** C6 at a script that returns 3. *)
Lemma failing_script_still_done_witness :
  fst (run world_script_fails) = Ret tt
  /\ exit_code (fst (run world_script_fails)) = 0
  /\ List.last (trace (snd (run world_script_fails))) (EvStdout "")
     = EvStdout "[INFO] Done."
  /\ In (EvStdout ("[ERROR] Script execution failed with code "
                   +:+ str_of_Z 3 +:+ ": "
                   +:+ called_process_error_str world_script_fails
                         ["/usr/bin/python3"; sample_script] 3))
        (trace (snd (run world_script_fails))).
Proof.
  apply (failing_script_still_done world_script_fails
           ["/usr/bin/python3"; sample_script] 3).
  - vm_compute. pick_event.
  - discriminate.
Defined.

(** C7 where no runner is installed. *)
Lemma model_runner_missing_exits_witness :
  exit_code (fst (run world_no_runner)) = 1
  /\ filter is_open (trace (snd (run world_no_runner))) = []
  /\ files (snd (run world_no_runner)) = files0 world_no_runner.
Proof.
  apply (model_runner_missing_exits world_no_runner ollama_cmd
           (plan_prompt "create a folder named reports")).
  vm_compute. pick_event.
Defined.

(** Claim C9 as stated fails: a fence quoted inside the code is removed
    with the wrapping ones, and a plain fence followed by [python] is
    taken for the tagged one. *)
Lemma fenced_code_counterexample :
  clean_code (fenced Tagged quoted_fence) <> strip quoted_fence
  /\ clean_code (fenced Tagged quoted_fence) = "s = ''"
  /\ strip quoted_fence = "s = '```'"
  /\ clean_code (fenced Plain "python_version = 3") <> "python_version = 3"
  /\ clean_code (fenced Plain "python_version = 3") = "_version = 3".
Proof.
  vm_compute. repeat split; discriminate.
Qed.

(** The amended C9 at the sample code under plain fences. *)
Lemma fenced_code_is_unwrapped_witness :
  clean_code (fenced Plain (LF +:+ sample_code +:+ LF)) = sample_code.
Proof.
  destruct (fenced_code_is_unwrapped Plain (LF +:+ sample_code +:+ LF))
    as [Hclean _]; [reflexivity | intros _; reflexivity |].
  rewrite Hclean. reflexivity.
Defined.

(** C10 at the answers [no] and [Y]. *)
Lemma approval_gates_compare_y_witness :
  (fst (run world_refused) = SysExit 0
   /\ List.length (filter is_popen (trace (snd (run world_refused)))) = 1%nat
   /\ filter is_open (trace (snd (run world_refused))) = [])
  /\ exists r,
       In (EvRun [executable world_script_fails;
                  script_path world_script_fails] r)
          (trace (snd (run world_script_fails))).
Proof.
  destruct (approval_gates_compare_y world_refused "no") as [Hplan _].
  destruct (approval_gates_compare_y world_script_fails "Y")
    as (_ & Hexec & _).
  split.
  - apply Hplan. vm_compute. pick_event.
  - apply Hexec. vm_compute. pick_event.
Defined.

End Examples.

(** * Further facts about a run *)

Section RunFacts.
Import PyStr PosixPath.


(** X1. A model subprocess that does not end with return code 0 (it could
    not be started, another exception was raised, or it returned an error
    code) ends the run through [sys.exit(1)] after a line on standard
    error: no file is opened and no script is started. *)
Theorem model_failure_is_fatal (w : World) cmd text r :
  In (EvPopen cmd text r) (trace (snd (run w))) ->
  (forall out err, r <> PopenDone out err 0) ->
  fst (run w) = SysExit 1
  /\ (exists line,
        List.last (trace (snd (run w))) (EvStdout "") = EvStderr line)
  /\ filter is_open (trace (snd (run w))) = []
  /\ filter is_run (trace (snd (run w))) = []
  /\ files (snd (run w)) = files0 w.
Proof.
  destruct (run w) as [res st] eqn:E. unfold run, main in E.
  exec E; injection E as <- <-; intros H Hr; cbn [fst snd trace files] in *;
    split_in H; injection H as <- <- <-;
    try match goal with
        | Hb : Z.eqb ?z 0 = true |- _ =>
            apply Z.eqb_eq in Hb; subst z; destruct (Hr _ _ eq_refl)
        end;
    (split; [reflexivity|split; [eexists; reflexivity|]]);
    repeat split; reflexivity.
Qed.


(** X13. Whatever the outcome of the started script, [main] returns after
    the line "[INFO] Done.", and the outcome was printed: success, the
    failing return code, or the exception that prevented the start. *)
Theorem script_outcome_reported (w : World) cmd r :
  In (EvRun cmd r) (trace (snd (run w))) ->
  fst (run w) = Ret tt
  /\ List.last (trace (snd (run w))) (EvStdout "") = EvStdout "[INFO] Done."
  /\ In (EvStdout
           match r with
           | RunDone rc =>
               if rc =? 0 then "[INFO] Script executed successfully."
               else "[ERROR] Script execution failed with code "
                    +:+ str_of_Z rc +:+ ": "
                    +:+ called_process_error_str w cmd rc
           | RunError e =>
               "[ERROR] An unexpected error occurred while running the script: "
               +:+ e
           end)
        (trace (snd (run w))).
Proof.
  destruct (run w) as [res st] eqn:E. unfold run, main in E.
  exec E; injection E as <- <-; intros H; cbn [fst snd trace files] in *;
    split_in H; injection H as <- <-;
    (split; [reflexivity|split; [reflexivity|]]);
    try match goal with
        | Hb : Z.eqb ?z 0 = _ |- _ => rewrite Hb
        end;
    pick_event.
Qed.

End RunFacts.

Section RunFacts2.
Import PyStr PosixPath.

(** X4. A failed write of the bundle is reported and nothing more: the
    script is still written and the execution prompt is still shown. *)
Theorem bundle_failure_not_fatal (w : World) content msg residue :
  In (EvOpen "generated_prompt.json" content (WriteFailed msg residue))
     (trace (snd (run w))) ->
  In (EvStdout ("[ERROR] Could not save prompts to file: " +:+ msg))
     (trace (snd (run w)))
  /\ (exists code wr,
        In (EvOpen (script_path w) (code +:+ LF) wr) (trace (snd (run w))))
  /\ (exists answer,
        In (EvInput (exec_question "generated_script.py") answer)
           (trace (snd (run w)))).
Proof.
  destruct (run w) as [res st] eqn:E. unfold run, main in E.
  exec E; injection E as <- <-; intros H; cbn [fst snd trace files] in *;
    split_in H;
    try (injection H as Hp _ _; symmetry in Hp;
         destruct (script_path_not_bundle w Hp));
    injection H as <- Hw;
    (split; [rewrite Hw; pick_event|]);
    (split; [do 2 eexists; pick_event|eexists; pick_event]).
Qed.

(** X7. When standard input ends at a prompt, [input] raises [EOFError],
    which nothing catches: the interpreter ends with status 1 right there
    and no script is started. *)
Theorem eof_at_prompt_crashes (w : World) question :
  In (EvInput question None) (trace (snd (run w))) ->
  fst (run w) = Uncaught "EOFError"
  /\ exit_code (fst (run w)) = 1
  /\ List.last (trace (snd (run w))) (EvStdout "") = EvInput question None
  /\ filter is_run (trace (snd (run w))) = [].
Proof.
  destruct (run w) as [res st] eqn:E. unfold run, main in E.
  exec E; injection E as <- <-; intros H; cbn [fst snd trace files] in *;
    split_in H; injection H as <-; repeat split; reflexivity.
Qed.

End RunFacts2.

Section RunFacts3.
Import PyStr PosixPath.



End RunFacts3.

Section RunFacts4.
Import PyStr PosixPath.

(** X8. When the script was written successfully and is then started, the
    interpreter is started on files in which the script path holds exactly
    what was written. *)
Theorem script_run_sees_saved_code (w : World) cmd r content :
  In (EvRun cmd r) (trace (snd (run w))) ->
  In (EvOpen (script_path w) content WriteOk) (trace (snd (run w))) ->
  exists fs,
    fs !! abspath (cwd w) (script_path w) = Some content
    /\ spawn w cmd fs = (r, files (snd (run w))).
Proof.
  destruct (run w) as [res st] eqn:E. unfold run, main in E.
  exec E; injection E as <- <-; intros H Hs; cbn [fst snd trace files] in *;
    split_in H; injection H as <- <-;
    split_in Hs;
    try (injection Hs as Hp _ _; destruct (script_path_not_bundle w Hp));
    injection Hs as <- Hw;
    match goal with
    | Hspawn : spawn w _ ?fs = _ |- _ =>
        exists fs; split; [|exact Hspawn]
    end;
    unfold written at 1; rewrite Hw; apply lookup_insert_eq.
Qed.

(** X10. The model is only ever started as [ollama run codellama:7b]; what
    it is sent is the plan prompt of the request or, after a plan was
    returned, the code prompt built from that (trimmed) plan and the
    request. *)
Theorem model_prompts (w : World) cmd text r :
  In (EvPopen cmd text r) (trace (snd (run w))) ->
  exists prog request rest,
    argv w = prog :: request :: rest
    /\ cmd = ["ollama"; "run"; "codellama:7b"]
    /\ (text = plan_prompt request
        \/ exists out err,
             In (EvPopen ollama_cmd (plan_prompt request)
                   (PopenDone out err 0))
                (trace (snd (run w)))
             /\ text = code_prompt (strip out) request).
Proof.
  destruct (run w) as [res st] eqn:E. unfold run, main in E.
  exec E; injection E as <- <-; intros H; cbn [fst snd trace files] in *;
    split_in H; injection H as <- <- <-;
    do 3 eexists; (split; [reflexivity|split; [reflexivity|]]);
    first [ left; reflexivity
          | right;
            repeat match goal with
                   | Hb : Z.eqb ?z 0 = true |- _ =>
                       apply Z.eqb_eq in Hb; subst z
                   end;
            do 2 eexists; split; [pick_event|reflexivity] ].
Qed.

End RunFacts4.

Section NewlineFacts.
Import PyStr.
#[local] Arguments String.append : simpl nomatch.

Lemma startswith_fence_app_lf x :
  startswith (x +:+ LF) "```" = startswith x "```".
Proof.
  do 3 (destruct x as [|? x];
        [cbn [startswith String.append LF];
         repeat (destruct (Ascii.eqb _ _); try reflexivity)|]).
  cbn [startswith String.append]. rewrite !startswith_nil. reflexivity.
Qed.

Lemma contains_fence_app_lf x :
  contains "```" (x +:+ LF) = contains "```" x.
Proof.
  induction x as [|a x IH]; [reflexivity|].
  change (String a x +:+ LF) with (String a (x +:+ LF)).
  rewrite !contains_cons, IH. f_equal.
  apply (startswith_fence_app_lf (String a x)).
Qed.

End NewlineFacts.

Section RunFacts5.
Import PyStr PosixPath.

(** X11. What is written to the script file is the trimmed output of a
    successful model call on a code prompt, with the fences removed and a
    newline added; it never holds a fence. *)
Theorem saved_script_is_cleaned_response (w : World) content wr :
  In (EvOpen (script_path w) content wr) (trace (snd (run w))) ->
  exists plan request out err,
    In (EvPopen ollama_cmd (code_prompt plan request) (PopenDone out err 0))
       (trace (snd (run w)))
    /\ content = clean_code (strip out) +:+ LF
    /\ contains "```" content = false.
Proof.
  destruct (run w) as [res st] eqn:E. unfold run, main in E.
  exec E; injection E as <- <-; intros H; cbn [fst snd trace files] in *;
    split_in H;
    try (injection H as Hp _ _; destruct (script_path_not_bundle w Hp));
    injection H as <- <-;
    repeat match goal with
           | Hb : Z.eqb ?z 0 = true |- _ => apply Z.eqb_eq in Hb; subst z
           end;
    do 4 eexists;
    (split; [pick_event|split; [reflexivity|]]);
    rewrite contains_fence_app_lf; apply clean_code_no_fence.
Qed.

(** X12. The bundle holds the request, the plan that was shown and the
    code that was shown, and that same code (with a newline) is what is
    then written to the script file. *)
Theorem bundle_matches_script (w : World) content wr :
  In (EvOpen "generated_prompt.json" content wr) (trace (snd (run w))) ->
  exists prog request rest plan code wr',
    argv w = prog :: request :: rest
    /\ content = json_dump w [("user_request", request); ("plan", plan);
                              ("generated_code", code)]
    /\ In (EvStdout plan) (trace (snd (run w)))
    /\ In (EvStdout code) (trace (snd (run w)))
    /\ In (EvOpen (script_path w) (code +:+ LF) wr') (trace (snd (run w))).
Proof.
  destruct (run w) as [res st] eqn:E. unfold run, main in E.
  exec E; injection E as <- <-; intros H; cbn [fst snd trace files] in *;
    split_in H;
    try (injection H as Hp _ _; symmetry in Hp;
         destruct (script_path_not_bundle w Hp));
    injection H as <- <-;
    do 6 eexists; (split; [reflexivity|split; [reflexivity|]]);
    (split; [pick_event|split; [pick_event|pick_event]]).
Qed.

End RunFacts5.

Section StageFacts.
Import PyStr PosixPath.

(** X2. [query_ollama] returns exactly when the subprocess ended with
    return code 0, whatever it wrote on its error channel, and what it
    returns is the trimmed output (trimming it again changes nothing); in
    every other case it leaves through [sys.exit(1)] after a line on
    standard error. Either way one subprocess was started and no file
    was touched. *)
Theorem query_ollama_outcome (w : World) prompt model st :
  let r := popen w (launched st) ["ollama"; "run"; model] prompt in
  let res := query_ollama w prompt model st in
  launched (snd res) = S (launched st)
  /\ files (snd res) = files st
  /\ filter is_popen (trace (snd res))
     = filter is_popen (trace st) ++ [EvPopen ["ollama"; "run"; model] prompt r]
  /\ (forall out err,
        r = PopenDone out err 0 ->
        fst res = Ret (strip out) /\ strip (strip out) = strip out)
  /\ ((forall out err, r <> PopenDone out err 0) ->
      fst res = SysExit 1
      /\ exists line,
           List.last (trace (snd res)) (EvStdout "") = EvStderr line).
Proof.
  destruct st as [fs un la tr].
  cbv beta iota zeta delta
    [query_ollama bind ret eprint emit sys_exit popen_communicate
     files unread launched trace].
  destruct (popen w la ["ollama"; "run"; model] prompt)
    as [|msg|out err rc] eqn:Hr.
  - cbn [fst snd launched files trace].
    split; [reflexivity|split; [reflexivity|split]].
    + rewrite !filter_app. cbn. rewrite app_nil_r. reflexivity.
    + split; [discriminate|]. intros _. split; [reflexivity|].
      eexists. rewrite last_last. reflexivity.
  - cbn [fst snd launched files trace].
    split; [reflexivity|split; [reflexivity|split]].
    + rewrite !filter_app. cbn. rewrite app_nil_r. reflexivity.
    + split; [discriminate|]. intros _. split; [reflexivity|].
      eexists. rewrite last_last. reflexivity.
  - destruct (rc =? 0) eqn:Hrc.
    + apply Z.eqb_eq in Hrc. subst rc.
      destruct (String.eqb err ""); cbn [negb fst snd launched files trace];
        (split; [reflexivity|split; [reflexivity|split]]);
        try (rewrite !filter_app; cbn; rewrite ?app_nil_r; reflexivity);
        (split; [intros o e Ho; injection Ho as <- _;
                 split; [reflexivity|apply strip_idem]
                |intros Hne; destruct (Hne _ _ eq_refl)]).
    + destruct (String.eqb err ""); cbn [negb fst snd launched files trace];
        (split; [reflexivity|split; [reflexivity|split]]);
        try (rewrite !filter_app; cbn; rewrite ?app_nil_r; reflexivity);
        (split; [intros o e Ho; injection Ho as _ _ Hz;
                 rewrite Hz in Hrc; discriminate Hrc
                |intros _; split; [reflexivity|];
                 eexists; rewrite last_last; reflexivity]).
Qed.

(** X9. A response that holds no fence is only trimmed by the code stage,
    and every cleaned text is already trimmed. *)
Theorem clean_code_only_trims (T : string) :
  contains "```" T = false ->
  clean_code T = strip T
  /\ strip (clean_code T) = clean_code T
  /\ clean_code (clean_code T) = strip T.
Proof.
  intros H.
  assert (Hc : clean_code T = strip T).
  { unfold clean_code.
    rewrite (replace_absent T "```python") by (apply no_fence_no_tag, H).
    rewrite (replace_absent T "```") by exact H. reflexivity. }
  split; [exact Hc|]. rewrite Hc, strip_idem. split; [reflexivity|].
  unfold clean_code.
  rewrite (replace_absent _ "```python")
    by (apply no_fence_no_tag, contains_strip, H).
  rewrite (replace_absent _ "```") by (apply contains_strip, H).
  apply strip_idem.
Qed.

End StageFacts.


(** * The further facts at concrete runs *)

Section MoreExamples.
Import PyStr PosixPath.

(** X1 at a model that returns 1. *)
Lemma model_failure_is_fatal_witness :
  fst (run world_model_fails) = SysExit 1
  /\ (exists line,
        List.last (trace (snd (run world_model_fails))) (EvStdout "")
        = EvStderr line)
  /\ filter is_open (trace (snd (run world_model_fails))) = []
  /\ filter is_run (trace (snd (run world_model_fails))) = []
  /\ files (snd (run world_model_fails)) = files0 world_model_fails.
Proof.
  apply (model_failure_is_fatal world_model_fails ollama_cmd
           (plan_prompt "create a folder named reports")
           (PopenDone "" "Error: model not found" 1)).
  - vm_compute. pick_event.
  - intros out err Hr. discriminate Hr.
Defined.

(** X2 at a model that writes on its error channel and returns 0. *)
Lemma query_ollama_outcome_witness :
  fst (query_ollama world_broken_pipe (plan_prompt "x") OLLAMA_MODEL
         (init world_broken_pipe))
  = Ret sample_plan.
Proof.
  destruct (query_ollama_outcome world_broken_pipe (plan_prompt "x")
              OLLAMA_MODEL (init world_broken_pipe))
    as (_ & _ & _ & Hok & _).
  destruct (Hok sample_plan "pulling manifest") as [Hres _];
    [reflexivity|]. rewrite Hres. reflexivity.
Defined.


(** X4 at a bundle that cannot be written. *)
Lemma bundle_failure_not_fatal_witness :
  exists code wr,
    In (EvOpen (script_path world_bundle_fails) (code +:+ LF) wr)
       (trace (snd (run world_bundle_fails))).
Proof.
  destruct (bundle_failure_not_fatal world_bundle_fails
              (bundle world_bundle_fails sample_plan sample_code
                 "create a folder named reports")
              "[Errno 28] No space left on device" (Some ""))
    as (_ & Hscript & _); [vm_compute; pick_event|exact Hscript].
Defined.



(** X7 at a run whose second prompt finds standard input at its end. *)
Lemma eof_at_prompt_crashes_witness :
  fst (run world_no_answer) = Uncaught "EOFError"
  /\ exit_code (fst (run world_no_answer)) = 1
  /\ List.last (trace (snd (run world_no_answer))) (EvStdout "")
     = EvInput (exec_question "generated_script.py") None
  /\ filter is_run (trace (snd (run world_no_answer))) = [].
Proof.
  apply (eof_at_prompt_crashes world_no_answer). vm_compute. pick_event.
Defined.

(** X8 at a complete run. *)
Lemma script_run_sees_saved_code_witness :
  exists fs,
    fs !! abspath (cwd world_ok) (script_path world_ok)
    = Some (sample_code +:+ LF)
    /\ spawn world_ok ["/usr/bin/python3"; sample_script] fs
       = (RunDone 0, files (snd (run world_ok))).
Proof.
  apply (script_run_sees_saved_code world_ok); vm_compute; pick_event.
Defined.

(** X9 at the sample code between blank lines. *)
Lemma clean_code_only_trims_witness :
  clean_code (LF +:+ sample_code +:+ LF) = sample_code.
Proof.
  destruct (clean_code_only_trims (LF +:+ sample_code +:+ LF))
    as [Hc _]; [reflexivity|]. rewrite Hc. reflexivity.
Defined.

(** X10 at the second model call of a complete run. *)
Lemma model_prompts_witness :
  exists prog request rest,
    argv world_ok = prog :: request :: rest
    /\ ollama_cmd = ["ollama"; "run"; "codellama:7b"]
    /\ (code_prompt sample_plan "create a folder named reports"
        = plan_prompt request
        \/ exists out err,
             In (EvPopen ollama_cmd (plan_prompt request)
                   (PopenDone out err 0))
                (trace (snd (run world_ok)))
             /\ code_prompt sample_plan "create a folder named reports"
                = code_prompt (strip out) request).
Proof.
  apply (model_prompts world_ok ollama_cmd
           (code_prompt sample_plan "create a folder named reports")
           (PopenDone sample_response "" 0)).
  vm_compute. pick_event.
Defined.

(** X11 and X12 at a complete run. *)
Lemma saved_script_is_cleaned_response_witness :
  exists plan request out err,
    In (EvPopen ollama_cmd (code_prompt plan request) (PopenDone out err 0))
       (trace (snd (run world_ok)))
    /\ sample_code +:+ LF = clean_code (strip out) +:+ LF
    /\ contains "```" (sample_code +:+ LF) = false.
Proof.
  apply (saved_script_is_cleaned_response world_ok (sample_code +:+ LF)
           WriteOk).
  vm_compute. pick_event.
Defined.

Lemma bundle_matches_script_witness :
  exists prog request rest plan code wr',
    argv world_ok = prog :: request :: rest
    /\ bundle world_ok sample_plan sample_code
         "create a folder named reports"
       = json_dump world_ok [("user_request", request); ("plan", plan);
                             ("generated_code", code)]
    /\ In (EvStdout plan) (trace (snd (run world_ok)))
    /\ In (EvStdout code) (trace (snd (run world_ok)))
    /\ In (EvOpen (script_path world_ok) (code +:+ LF) wr')
          (trace (snd (run world_ok))).
Proof.
  apply (bundle_matches_script world_ok _ WriteOk).
  vm_compute. pick_event.
Defined.

(** X13 at a script that cannot be started. *)
Lemma script_outcome_reported_witness :
  fst (run world_no_launch) = Ret tt
  /\ List.last (trace (snd (run world_no_launch))) (EvStdout "")
     = EvStdout "[INFO] Done."
  /\ In (EvStdout
           ("[ERROR] An unexpected error occurred while running the script: "
            +:+ "[Errno 13] Permission denied: '/usr/bin/python3'"))
        (trace (snd (run world_no_launch))).
Proof.
  apply (script_outcome_reported world_no_launch
           ["/usr/bin/python3"; sample_script]
           (RunError "[Errno 13] Permission denied: '/usr/bin/python3'")).
  vm_compute. pick_event.
Defined.

End MoreExamples.
